(** * spark_data_lakes: the ETL script etl.py

    A shallow embedding of [etl.py] as it is written: the module's
    import-time statements, [create_spark_session], the song-catalog
    transform [process_song_data], the event-log transform
    [process_log_data] and the orchestrator [main].

    A Python statement is a computation on the world (the store, the
    engine, the trace of what was asked of it) that returns or raises.  An
    expression is evaluated left to right and stops at its first exception:
    a reference to a name the module binds nowhere raises [NameError] there,
    and the calls that would have consumed its value have no translation.
    What the engine does with the files it reads (which files a glob
    matches, how a token is cast to the declared type) belongs to the world,
    as do the settings file and the environment. *)

From Stdlib Require Import Ascii String ZArith Lia Bool Arith List.
Import ListNotations.
Local Open Scope string_scope.
Local Open Scope Z_scope.
Local Open Scope list_scope.

(** ** Values, rows and data frames *)

(** A cell: SQL null, or a value of one of the column types the two schemas
    use.  A double is carried as the integer of its binary64 bit pattern:
    the script never computes with it, it only copies and compares. *)
Inductive Value : Type :=
  | VNull
  | VString (s : string)
  | VInt (n : Z)
  | VLong (n : Z)
  | VDouble (bits : Z)
  | VTimestamp (micros : Z).

Definition Value_eq_dec (a b : Value) : {a = b} + {a <> b}.
Proof. decide equality; try apply Z.eq_dec; apply string_dec. Defined.

(** A row lists its columns in order. *)
Definition Row : Type := list (string * Value).

Definition Row_eq_dec (a b : Row) : {a = b} + {a <> b}.
Proof.
  apply list_eq_dec. intros [c v] [c' v'].
  destruct (string_dec c c'); [| right; congruence].
  destruct (Value_eq_dec v v'); [left | right]; congruence.
Defined.

(** A data frame: the names of its columns, which the analyzer resolves
    references against, and its rows, partition by partition. *)
Record DataFrame : Type :=
  { columns : list string;
    partitions : list (list Row) }.

Definition collect (df : DataFrame) : list Row := concat (partitions df).

(** Column lookup by name in a row; a missing one reads as null. *)
Fixpoint get (c : string) (r : Row) : Value :=
  match r with
  | [] => VNull
  | (k, v) :: r' => if String.eqb c k then v else get c r'
  end.

Definition has_col (c : string) (r : Row) : bool :=
  existsb (fun kv => String.eqb c (fst kv)) r.

(** [withColumn] on one row: a column of that name is replaced where it
    stands, otherwise the new column is appended. *)
Definition set (c : string) (v : Value) (r : Row) : Row :=
  if has_col c r
  then map (fun kv => if String.eqb c (fst kv) then (fst kv, v) else kv) r
  else r ++ [(c, v)].

Definition drop_col (c : string) (r : Row) : Row :=
  filter (fun kv => negb (String.eqb c (fst kv))) r.

(** A column expression, evaluated row by row. *)
Definition Column : Type := Row -> Value.

Definition col (name : string) : Column := fun r => get name r.

Definition withColumn (c : string) (e : Column) (df : DataFrame) : DataFrame :=
  {| columns := if existsb (String.eqb c) (columns df) then columns df
                else columns df ++ [c];
     partitions := map (map (fun r => set c (e r) r)) (partitions df) |}.

(** [df.filter(...)] *)
Definition where_ (p : Row -> bool) (df : DataFrame) : DataFrame :=
  {| columns := columns df; partitions := map (filter p) (partitions df) |}.

(** SQL equality in a filter condition: null never matches. *)
Definition sql_eqb (a b : Value) : bool :=
  match a, b with
  | VNull, _ | _, VNull => false
  | _, _ => if Value_eq_dec a b then true else false
  end.

(** Grouping compares doubles after normalization: negative zero is zero
    and every NaN is the one quiet NaN. *)
Definition normalize_double (bits : Z) : Z :=
  if bits =? 2 ^ 63 then 0
  else if 9218868437227405312 <? bits mod 2 ^ 63 then 9221120237041090560
       else bits.

Definition normalize_value (v : Value) : Value :=
  match v with
  | VDouble bits => VDouble (normalize_double bits)
  | _ => v
  end.

Definition normalize_row (r : Row) : Row :=
  map (fun kv => (fst kv, normalize_value (snd kv))) r.

Section Shuffle.

(** The shuffle behind [dropDuplicates]: the distinct rows are exchanged by
    hash into [shuffle_partitions] partitions. *)
Variable shuffle_partitions : nat.
Variable row_hash : Row -> nat.

Definition exchange (rows : list Row) : list (list Row) :=
  map (fun p => filter (fun r => Nat.eqb (Nat.modulo (row_hash r) shuffle_partitions) p) rows)
      (seq 0 shuffle_partitions).

Definition dropDuplicates (df : DataFrame) : DataFrame :=
  {| columns := columns df;
     partitions := exchange (nodup Row_eq_dec (map normalize_row (collect df))) |}.

End Shuffle.

(** ** The hour of a timestamp *)

(** A timestamp counts microseconds from the epoch; [hour] reads the hour of
    the local time in the session time zone ([floorDiv] and [floorMod] are
    [Z.div] and [Z.modulo]). *)
Definition MICROS_PER_SECOND : Z := 1000000.
Definition SECONDS_PER_DAY : Z := 86400.
Definition SECONDS_PER_HOUR : Z := 3600.

Section Calendar.

(** The session time zone: the offset from UTC, in seconds, in force at an
    epoch second. *)
Variable zone_offset : Z -> Z.

Definition local_second (micros : Z) : Z :=
  let s := micros / MICROS_PER_SECOND in s + zone_offset s.

Definition hour_of (micros : Z) : Z :=
  Z.quot (local_second micros mod SECONDS_PER_DAY) SECONDS_PER_HOUR.

(** The column function: null in, null out. *)
Definition hour (e : Column) : Column :=
  fun r => match e r with VTimestamp t => VInt (hour_of t) | _ => VNull end.

End Calendar.

(** ** Schemas *)

Inductive DataType : Type := IntegerType | StringType | DoubleType | TimestampType.

Record StructField : Type :=
  { field_name : string; field_type : DataType; field_nullable : bool }.

(** ** The world the script runs in *)

(** A stored dataset: its directories, each with the values of the
    partition columns that name it and the rows in its files. *)
Definition PartKey : Type := list (string * Value).
Definition Dataset : Type := list (PartKey * list Row).

Definition PartKey_eq_dec : forall a b : PartKey, {a = b} + {a <> b} := Row_eq_dec.

(** The settings file, as [config.read] finds it. *)
Inductive ConfigFile : Type :=
  | NoFile
  | Unparsable
  | Sections (names : list string).

(** What the script asks of the engine, and which of its functions it
    enters, in order. *)
Inductive Action : Type :=
  | Enter (fn input_data output_data : string)
  | GetOrCreate (packages : string)
  | ReadJson (path : string)
  | ReadParquet (path : string)
  | WriteParquet (path : string) (partitionBy : list string).

Inductive Error : Type :=
  | IndentationError (line : nat)
  | ConfigParsingError
  | KeyError (key : string)
  | TypeError (message : string)
  | NameError (name : string)
  | AttributeError (name : string)
  | AnalysisException (reference : string)
  | EngineUnavailable
  | PathNotFound (path : string)
  | PathExists (path : string).

Record World : Type :=
  { files : string -> option Dataset;
    engine_up : bool;
    trace : list Action;
    (** the files a glob matches in the dataset under its root, if any *)
    scan : string -> Dataset -> option (list (list Row));
    (** the reader's cast of a token that is not null to a declared type *)
    cast : DataType -> Value -> Value;
    dl_cfg : ConfigFile;
    environ : string -> option string }.

Inductive Result (A : Type) : Type :=
  | Ok (a : A)
  | Raise (e : Error).
Arguments Ok {A} a.
Arguments Raise {A} e.

(** A computation reads and changes the world and returns or raises; what
    was done before an exception stays done. *)
Definition M (A : Type) : Type := World -> Result A * World.

Definition ret {A} (a : A) : M A := fun w => (Ok a, w).

Definition bind {A B} (m : M A) (k : A -> M B) : M B :=
  fun w => match m w with
           | (Ok a, w') => k a w'
           | (Raise e, w') => (Raise e, w')
           end.

Notation "x <- m ;; k" := (bind m (fun x => k))
  (at level 61, m at next level, right associativity).
Notation "m ;;; k" := (bind m (fun _ => k))
  (at level 61, right associativity).

Definition raise {A} (e : Error) : M A := fun w => (Raise e, w).

Definition with_trace (t : list Action) (w : World) : World :=
  {| files := files w; engine_up := engine_up w; trace := t;
     scan := scan w; cast := cast w; dl_cfg := dl_cfg w; environ := environ w |}.

Definition with_files (f : string -> option Dataset) (w : World) : World :=
  {| files := f; engine_up := engine_up w; trace := trace w;
     scan := scan w; cast := cast w; dl_cfg := dl_cfg w; environ := environ w |}.

Definition log (a : Action) : M unit :=
  fun w => (Ok tt, with_trace (trace w ++ [a]) w).

Definition lookup_files (path : string) : M (option Dataset) :=
  fun w => (Ok (files w path), w).

Definition store (path : string) (d : Dataset) : M unit :=
  fun w => (Ok tt, with_files (fun p => if String.eqb p path then Some d else files w p) w).

(** ** The analyzer *)

(** A column reference resolves when exactly one column has that name; the
    analyzer raises on any other. *)
Definition resolves (c : string) (df : DataFrame) : bool :=
  Nat.eqb (count_occ string_dec (columns df) c) 1.

(** [df.select(c1, c2, ...)] with strings: each string is the name of a
    column (["x as y"] is the name of a column too, not a renaming). *)
Definition select (cols : list string) (df : DataFrame) : M DataFrame :=
  match find (fun c => negb (resolves c df)) cols with
  | Some c => raise (AnalysisException c)
  | None =>
      ret {| columns := cols;
             partitions := map (map (fun r => map (fun c => (c, get c r)) cols))
                               (partitions df) |}
  end.

(** [df.name]: the attribute of a frame that is one of its columns. *)
Definition attr (df : DataFrame) (name : string) : M Column :=
  if existsb (String.eqb name) (columns df)
  then if resolves name df then ret (col name) else raise (AnalysisException name)
  else raise (AttributeError name).

(** ** The storage layer *)

(** The directory a path or glob reads from: everything up to the path
    component that holds the first [*]. *)
Fixpoint dataset_root_from (done pending path : string) : string :=
  match path with
  | EmptyString => (done ++ pending)%string
  | String ch rest =>
      if Ascii.eqb ch "*"%char then done
      else if Ascii.eqb ch "/"%char
           then dataset_root_from (done ++ pending ++ "/")%string EmptyString rest
           else dataset_root_from done (pending ++ String ch EmptyString)%string rest
  end.

Definition dataset_root (path : string) : string :=
  dataset_root_from EmptyString EmptyString path.

(** The files of a read: there must be a dataset under the root of the
    path, and the path must match files in it. *)
Definition scan_files (path : string) : M (list (list Row)) :=
  found <- lookup_files (dataset_root path) ;;
  match found with
  | None => raise (PathNotFound path)
  | Some d => fun w => match scan w path d with
                       | None => (Raise (PathNotFound path), w)
                       | Some parts => (Ok parts, w)
                       end
  end.

(** A record read against a schema has the schema's columns, in its order.
    A null or absent field is loaded as null whatever the [nullable] flag
    says (a file source loads every column as nullable), and the reader,
    called without a [mode], does not raise on a token: the engine casts it
    as it can. *)
Definition read_field (cast : DataType -> Value -> Value) (f : StructField) (rec : Row)
  : Value :=
  match get (field_name f) rec with
  | VNull => VNull
  | v => cast (field_type f) v
  end.

Definition read_record (cast : DataType -> Value -> Value) (schema : list StructField)
    (rec : Row) : Row :=
  map (fun f => (field_name f, read_field cast f rec)) schema.

Inductive SparkSession : Type := Session (packages : string).

(** [spark.read.json(path, schema = schema)] *)
Definition read_json (spark : SparkSession) (path : string) (schema : list StructField)
  : M DataFrame :=
  log (ReadJson path) ;;;
  parts <- scan_files path ;;
  fun w => (Ok {| columns := map field_name schema;
                  partitions := map (map (read_record (cast w) schema)) parts |}, w).

(** The columns of the rows a read found (a parquet file names its own). *)
Definition columns_of (parts : list (list Row)) : list string :=
  match concat parts with
  | [] => []
  | r :: _ => map fst r
  end.

(** [spark.read.parquet(path)] *)
Definition read_parquet (spark : SparkSession) (path : string) : M DataFrame :=
  log (ReadParquet path) ;;;
  parts <- scan_files path ;;
  ret {| columns := columns_of parts; partitions := parts |}.

Definition key_of (cols : list string) (r : Row) : PartKey :=
  map (fun c => (c, get c r)) cols.

Definition drop_cols (cols : list string) (r : Row) : Row :=
  fold_left (fun acc c => drop_col c acc) cols r.

(** [write.partitionBy(cols)]: one directory per combination of values of
    the partition columns; the files keep the other columns. *)
Definition partition_files (cols : list string) (rows : list Row) : Dataset :=
  map (fun k =>
         (k, map (drop_cols cols)
                 (filter (fun r => if PartKey_eq_dec (key_of cols r) k then true else false) rows)))
      (nodup PartKey_eq_dec (map (key_of cols) rows)).

(** [df.write.partitionBy(cols).parquet(path)], in the writer's default
    save mode: an existing path is an error; a partition column must be a
    column of the frame. *)
Definition write_parquet (cols : list string) (path : string) (df : DataFrame) : M unit :=
  log (WriteParquet path cols) ;;;
  found <- lookup_files path ;;
  match found with
  | Some _ => raise (PathExists path)
  | None =>
      match find (fun c => negb (resolves c df)) cols with
      | Some c => raise (AnalysisException c)
      | None => store path (partition_files cols (collect df))
      end
  end.

(** ** Names *)

(** The names the module binds: its imports (lines 1-7), [config] (line 10)
    and its four functions. *)
Definition etl_globals : list string :=
  ["configparser"; "datetime"; "os"; "SparkSession"; "udf"; "col";
   "year"; "month"; "dayofmonth"; "hour"; "weekofyear"; "date_format";
   "StructType"; "StructField"; "DoubleType"; "StringType"; "IntegerType";
   "DateType"; "TimestampType";
   "config"; "create_spark_session"; "process_song_data"; "process_log_data"; "main"].

(** The names the function bodies refer to that are bound neither there,
    nor in the module, nor among the builtins. *)
Definition free_names : list string :=
  ["monotonically_increasing_id"; "date_conversion"; "day"; "week"; "song_df"].

(** A reference to a free name, in an expression that would have made an
    [A] of it. *)
Definition unbound {A : Type} (name : string) : M A := raise (NameError name).

(** ** etl.py *)

(** *** Lines 10-14: the settings *)

(** [config.read('dl.cfg')]: a missing file is skipped, a file that does not
    parse raises; the parser then knows the sections of the file. *)
Definition config_read : M (list string) :=
  fun w => match dl_cfg w with
           | Unparsable => (Raise ConfigParsingError, w)
           | NoFile => (Ok [], w)
           | Sections names => (Ok names, w)
           end.

(** [config[key]]: the section of that name; the default section is always
    there. *)
Definition section (config : list string) (key : string) : M string :=
  if String.eqb key "DEFAULT" || existsb (String.eqb key) config
  then ret key else raise (KeyError key).

(** [os.environ[key] = config[key]]: the right-hand side is a section, and
    the environment takes strings only. *)
Definition setenv_section (config : list string) (key : string) : M unit :=
  proxy <- section config key ;;
  raise (TypeError "str expected, not SectionProxy").

Definition load_settings : M unit :=
  config <- config_read ;;
  setenv_section config "AWS_ACCESS_KEY_ID" ;;;
  setenv_section config "AWS_SECRET_ACCESS_KEY".

(** *** create_spark_session *)

Definition create_spark_session : M SparkSession :=
  log (GetOrCreate "org.apache.hadoop:hadoop-aws:2.7.0") ;;;
  fun w => if engine_up w
           then (Ok (Session "org.apache.hadoop:hadoop-aws:2.7.0"), w)
           else (Raise EngineUnavailable, w).

Definition song_schema : list StructField :=
  [ {| field_name := "num_songs"; field_type := IntegerType; field_nullable := true |};
    {| field_name := "artist_id"; field_type := StringType; field_nullable := false |};
    {| field_name := "artist_latitude"; field_type := DoubleType; field_nullable := true |};
    {| field_name := "artist_longitude"; field_type := DoubleType; field_nullable := true |};
    {| field_name := "artist_location"; field_type := StringType; field_nullable := true |};
    {| field_name := "artist_name"; field_type := StringType; field_nullable := true |};
    {| field_name := "song_id"; field_type := StringType; field_nullable := false |};
    {| field_name := "title"; field_type := StringType; field_nullable := true |};
    {| field_name := "duration"; field_type := DoubleType; field_nullable := true |};
    {| field_name := "year"; field_type := IntegerType; field_nullable := true |} ].

Definition log_schema : list StructField :=
  [ {| field_name := "artist"; field_type := StringType; field_nullable := true |};
    {| field_name := "auth"; field_type := StringType; field_nullable := true |};
    {| field_name := "firstName"; field_type := StringType; field_nullable := true |};
    {| field_name := "gender"; field_type := StringType; field_nullable := true |};
    {| field_name := "itemInSession"; field_type := IntegerType; field_nullable := true |};
    {| field_name := "lastName"; field_type := StringType; field_nullable := true |};
    {| field_name := "length"; field_type := DoubleType; field_nullable := true |};
    {| field_name := "level"; field_type := StringType; field_nullable := true |};
    {| field_name := "location"; field_type := StringType; field_nullable := true |};
    {| field_name := "method"; field_type := StringType; field_nullable := true |};
    {| field_name := "page"; field_type := StringType; field_nullable := true |};
    {| field_name := "registration"; field_type := StringType; field_nullable := true |};
    {| field_name := "sessionId"; field_type := IntegerType; field_nullable := true |};
    {| field_name := "song"; field_type := StringType; field_nullable := true |};
    {| field_name := "status"; field_type := IntegerType; field_nullable := true |};
    {| field_name := "ts"; field_type := TimestampType; field_nullable := true |};
    {| field_name := "userAgent"; field_type := StringType; field_nullable := true |};
    {| field_name := "userId"; field_type := IntegerType; field_nullable := false |} ].

(** The paths of the song-catalog relations: where line 61 and line 70
    write them, and where lines 135 and 137 read them. *)
Definition songs_written (output_data : string) : string := (output_data ++ "songs/")%string.
Definition artists_written (output_data : string) : string := (output_data ++ "artists/")%string.
Definition songs_read (output_data : string) : string :=
  (output_data ++ "song_data/*/*/*")%string.
Definition artists_read (output_data : string) : string := (output_data ++ "artists/*")%string.

(** [df.filter(df.page == "NextSong")] *)
Definition next_song (df : DataFrame) : DataFrame :=
  where_ (fun r => sql_eqb (get "page" r) (VString "NextSong")) df.

Section Script.

Variable shuffle_partitions : nat.
Variable row_hash : Row -> nat.
Variable zone_offset : Z -> Z.

(** Lines 141-151 of [process_log_data] have no embedding: line 146 stands
    one column deeper than its block and does not parse, and the joins of
    lines 141-144 turn on how the analyzer tells apart the two start_time
    columns of one lineage, which the script does not settle.  What these
    lines would do with the frames built before them is left open; no run
    reaches them. *)
Variable lines_141_151 :
  SparkSession -> string -> DataFrame -> DataFrame -> DataFrame -> DataFrame -> M unit.

(** *** process_song_data *)

(** Lines 56-58. *)
Definition songs_table (df : DataFrame) : M DataFrame :=
  selected <- select ["title"; "artist_id"; "year"; "duration"] df ;;
  let distinct := dropDuplicates shuffle_partitions row_hash selected in
  unbound "monotonically_increasing_id".

(** Lines 64-67. *)
Definition artists_table (df : DataFrame) : M DataFrame :=
  selected <- select ["artist_id"; "artist_name as name"; "artist_location as location";
                      "artist_latitude as latitude"; "artist_longitude as longitude"] df ;;
  let distinct := dropDuplicates shuffle_partitions row_hash selected in
  unbound "monotonically_increasing_id".

Definition process_song_data (spark : SparkSession) (input_data output_data : string)
  : M unit :=
  log (Enter "process_song_data" input_data output_data) ;;;
  let song_data := (input_data ++ "song_data/*/*/*/*.json")%string in
  df <- read_json spark song_data song_schema ;;
  songs <- songs_table df ;;
  write_parquet ["year"; "artist_id"] (songs_written output_data) songs ;;;
  artists <- artists_table df ;;
  write_parquet [] (artists_written output_data) artists.

(** *** process_log_data *)

(** Lines 111-112. *)
Definition users_table (df : DataFrame) : M DataFrame :=
  selected <- select ["userId as user_id"; "firstName as first_name";
                      "lastName as last_name"; "gender"; "level"] df ;;
  ret (dropDuplicates shuffle_partitions row_hash selected).

(** Line 118: [udf(date_conversion, TimestampType())]. *)
Definition get_datetime : M (string -> Column) := unbound "date_conversion".

(** Lines 122-129: the chain stops at [day]. *)
Definition time_table (df : DataFrame) : M DataFrame :=
  selected <- select ["start_time"] df ;;
  let distinct := dropDuplicates shuffle_partitions row_hash selected in
  let with_hour := withColumn "hour" (hour zone_offset (col "start_time")) distinct in
  unbound "day".

(** Line 140: [df.join(songs_df, df.song == song_df.title)]. *)
Definition songs_logs_joined_df (df songs_df : DataFrame) : M DataFrame :=
  song <- attr df "song" ;;
  unbound "song_df".

Definition process_log_data (spark : SparkSession) (input_data output_data : string)
  : M unit :=
  log (Enter "process_log_data" input_data output_data) ;;;
  let log_data := (input_data ++ "log_data/*/*/*.json")%string in
  df <- read_json spark log_data log_schema ;;
  page <- attr df "page" ;;
  let df := next_song df in
  users <- users_table df ;;
  write_parquet [] (output_data ++ "users/")%string users ;;;
  get_datetime <- get_datetime ;;
  let df := withColumn "start_time" (get_datetime "ts") df in
  time_tbl <- time_table df ;;
  write_parquet ["year"; "month"] (output_data ++ "time/")%string time_tbl ;;;
  songs_df <- read_parquet spark (songs_read output_data) ;;
  artists_df <- read_parquet spark (artists_read output_data) ;;
  joined <- songs_logs_joined_df df songs_df ;;
  lines_141_151 spark output_data joined artists_df time_tbl df.

(** *** main *)

Definition main : M unit :=
  spark <- create_spark_session ;;
  let input_data := "s3a://udacity-dend/" in
  let output_data := "" in
  process_song_data spark input_data output_data ;;;
  process_log_data spark input_data output_data.

(** *** The module, run as a script *)

(** The statements of the module in order: the imports, the settings
    (lines 10-14), the four definitions, and the call of [main] (lines
    167-168). *)
Definition module_body : M unit :=
  load_settings ;;;
  main.

(** The compiler reads the whole file before it runs a statement of it, and
    rejects line 146. *)
Definition compile : M unit := raise (IndentationError 146).

Definition etl_py : M unit :=
  compile ;;;
  module_body.

End Script.

(** ** Vocabulary of the properties *)

(** The calls in a trace, and the paths it asks to write. *)
Definition is_call (a : Action) : bool :=
  match a with Enter _ _ _ | GetOrCreate _ => true | _ => false end.

Definition calls (t : list Action) : list Action := filter is_call t.

Definition writes (t : list Action) : list string :=
  flat_map (fun a => match a with WriteParquet p _ => [p] | _ => [] end) t.

(** What a run added to the trace it started from. *)
Definition asked (w w' : World) : list Action := skipn (length (trace w)) (trace w').

(** ** Sample data *)

Module Sample.

Definition hash (r : Row) : nat := length r.

Definition utc (_ : Z) : Z := 0.

Definition spark : SparkSession := Session "org.apache.hadoop:hadoop-aws:2.7.0".

(** An engine that finds every file of a dataset and keeps a token as it is. *)
Definition all_files (_ : string) (d : Dataset) : option (list (list Row)) :=
  Some (map snd d).

Definition keep (_ : DataType) (v : Value) : Value := v.

Definition unreached (_ : SparkSession) (_ : string) (_ _ _ _ : DataFrame) : M unit :=
  ret tt.

Definition song (title artist_id artist_name : string) (y : Z) : Row :=
  [("num_songs", VInt 1); ("artist_id", VString artist_id);
   ("artist_latitude", VNull); ("artist_longitude", VNull);
   ("artist_location", VString "Oslo"); ("artist_name", VString artist_name);
   ("song_id", VString "SOAAA"); ("title", VString title);
   ("duration", VDouble 4640487717963694080); ("year", VInt y)].

(** Three song records; the first appears twice. *)
Definition song_data : list Row :=
  [song "Test Song" "A1" "Ann" 2000; song "Test Song" "A1" "Ann" 2000;
   song "Blue" "A2" "Bob" 2001].

Definition event (page song artist : string) (ts : Z) (userId : Value) : Row :=
  [("artist", VString artist); ("auth", VString "Logged In");
   ("firstName", VString "Kim"); ("gender", VString "F"); ("itemInSession", VInt 0);
   ("lastName", VString "Lee"); ("length", VNull); ("level", VString "free");
   ("location", VString "Bergen"); ("method", VString "PUT"); ("page", VString page);
   ("registration", VNull); ("sessionId", VInt 7); ("song", VString song);
   ("status", VInt 200); ("ts", VTimestamp ts); ("userAgent", VString "Mozilla");
   ("userId", userId)].

(** 2018-11-15 10:30:00 and 2018-12-01 00:00:00 UTC, in microseconds; the
    second event plays a song that is in no song record. *)
Definition log_data : list Row :=
  [event "NextSong" "Test Song" "Ann" 1542277800000000 (VInt 26);
   event "Home" "" "" 1542277801000000 (VInt 26);
   event "NextSong" "Unknown Song" "Ann" 1543622400000000 (VInt 8)].

Definition store_of (songs logs : list Row) (p : string) : option Dataset :=
  if String.eqb p "s3a://udacity-dend/song_data/" then Some [([], songs)]
  else if String.eqb p "s3a://udacity-dend/log_data/" then Some [([], logs)]
       else None.

(** The store the orchestrator expects: song files and log files, and no
    output yet. *)
Definition lake : World :=
  {| files := store_of song_data log_data;
     engine_up := true;
     trace := [];
     scan := all_files;
     cast := keep;
     dl_cfg := Sections ["AWS"];
     environ := fun _ => None |}.

(** Song and log files with a null in a field the schema marks required. *)
Definition null_song : Row :=
  [("num_songs", VInt 1); ("artist_id", VNull); ("artist_name", VString "Cy");
   ("song_id", VNull); ("title", VString "Red"); ("year", VInt 1999)].

Definition null_lake : World :=
  {| files := store_of [null_song] [event "NextSong" "Red" "Cy" 1542277800000000 VNull];
     engine_up := true;
     trace := [];
     scan := all_files;
     cast := keep;
     dl_cfg := Sections ["AWS"];
     environ := fun _ => None |}.

(** An output directory as lines 61 and 70 would leave it: songs/ and
    artists/, and no song_data/. *)
Definition written : World :=
  {| files := fun p =>
       if String.eqb p "songs/"
       then Some [([("year", VInt 2000); ("artist_id", VString "A1")],
                   [[("title", VString "Test Song"); ("duration", VDouble 4640487717963694080);
                     ("song_id", VLong 0)]])]
       else if String.eqb p "artists/"
            then Some [([], [[("artist_id", VLong 0); ("name", VString "Ann");
                              ("location", VString "Oslo"); ("latitude", VNull);
                              ("longitude", VNull)]])]
            else None;
     engine_up := true;
     trace := [];
     scan := all_files;
     cast := keep;
     dl_cfg := Sections ["AWS"];
     environ := fun _ => None |}.

End Sample.

(** * Properties *)

(** ** Names and columns *)

Lemma free_names_unbound : Forall (fun n => ~ In n etl_globals) free_names.
Proof.
  repeat constructor; intros H; simpl in H;
    repeat (destruct H as [H | H]; [discriminate |]); exact H.
Qed.

Lemma song_columns_resolve (parts : list (list Row)) :
  find (fun c => negb (resolves c {| columns := map field_name song_schema;
                                     partitions := parts |}))
       ["title"; "artist_id"; "year"; "duration"] = None.
Proof. reflexivity. Qed.

Lemma renaming_is_no_song_column (parts : list (list Row)) :
  find (fun c => negb (resolves c {| columns := map field_name song_schema;
                                     partitions := parts |}))
       ["artist_id"; "artist_name as name"; "artist_location as location";
        "artist_latitude as latitude"; "artist_longitude as longitude"]
  = Some "artist_name as name".
Proof. reflexivity. Qed.

Lemma renaming_is_no_log_column (parts : list (list Row)) :
  find (fun c => negb (resolves c {| columns := map field_name log_schema;
                                     partitions := parts |}))
       ["userId as user_id"; "firstName as first_name"; "lastName as last_name";
        "gender"; "level"]
  = Some "userId as user_id".
Proof. reflexivity. Qed.

Lemma append_inv_head (s a b : string) : (s ++ a)%string = (s ++ b)%string -> a = b.
Proof. induction s as [| ch s IH]; simpl; intros H; [assumption |]. injection H as H. auto. Qed.

Lemma append_eqb_false (s a b : string) :
  String.eqb a b = false -> String.eqb (s ++ a) (s ++ b) = false.
Proof.
  intros H. apply String.eqb_neq. intros E. apply append_inv_head in E.
  apply String.eqb_neq in H. contradiction.
Qed.

Ltac run_script :=
  repeat (progress (unfold bind, log, lookup_files, store, raise, ret, unbound;
                    cbn [files engine_up trace scan cast dl_cfg environ fst snd
                         with_trace with_files])).

(** ** Running the song-catalog transform *)

Section SongRun.

Variable shuffle_partitions : nat.
Variable row_hash : Row -> nat.

(** The transform reads, and then stops: on the read when no file is
    found, and otherwise on the name at line 58.  It never gets to a
    write. *)
Lemma process_song_data_outcome (spark : SparkSession) (input_data output_data : string)
    (w : World) :
  process_song_data shuffle_partitions row_hash spark input_data output_data w
  = (match files w (dataset_root (input_data ++ "song_data/*/*/*/*.json")) with
     | None => Raise (PathNotFound (input_data ++ "song_data/*/*/*/*.json"))
     | Some d =>
         match scan w (input_data ++ "song_data/*/*/*/*.json")%string d with
         | None => Raise (PathNotFound (input_data ++ "song_data/*/*/*/*.json"))
         | Some _ => Raise (NameError "monotonically_increasing_id")
         end
     end,
     with_trace (trace w ++ [Enter "process_song_data" input_data output_data;
                             ReadJson (input_data ++ "song_data/*/*/*/*.json")]) w).
Proof.
  unfold process_song_data, read_json, scan_files, songs_table, select. run_script.
  destruct (files w (dataset_root (input_data ++ "song_data/*/*/*/*.json"))) as [d |];
    run_script; rewrite <- ?app_assoc; [| reflexivity].
  destruct (scan w (input_data ++ "song_data/*/*/*/*.json")%string d) as [parts |];
    run_script; [| reflexivity].
  rewrite song_columns_resolve. reflexivity.
Qed.

End SongRun.

Lemma asked_app (w : World) (t : list Action) : asked w (with_trace (trace w ++ t) w) = t.
Proof.
  unfold asked. cbn [trace with_trace].
  rewrite skipn_app, skipn_all, Nat.sub_diag. reflexivity.
Qed.

(** ** What the song-catalog transform leaves alone *)

Section SongFrame.

Variable shuffle_partitions : nat.
Variable row_hash : Row -> nat.

(** C10: whatever its outcome, the song-catalog transform changes the
    store at its songs/ and artists/ paths only, and only by creating them:
    users/, time/ and songplays/ are as before, every dataset that existed
    (the input among them) is as before, and the only writes it asks for are
    to songs/ and artists/. *)
Theorem process_song_data_frame (spark : SparkSession) (input_data output_data : string)
    (w : World) :
  (forall p, String.eqb p (output_data ++ "songs/") = false ->
             String.eqb p (output_data ++ "artists/") = false ->
             files (snd (process_song_data shuffle_partitions row_hash
                           spark input_data output_data w)) p = files w p) /\
  (forall p d, files w p = Some d ->
               files (snd (process_song_data shuffle_partitions row_hash
                             spark input_data output_data w)) p = Some d) /\
  Forall (fun p => files (snd (process_song_data shuffle_partitions row_hash
                                 spark input_data output_data w)) p = files w p)
         [(output_data ++ "users/")%string; (output_data ++ "time/")%string;
          (output_data ++ "songplays/")%string] /\
  exists io,
    trace (snd (process_song_data shuffle_partitions row_hash spark input_data output_data w))
    = trace w ++ io /\
    incl (writes io) [(output_data ++ "songs/")%string; (output_data ++ "artists/")%string].
Proof.
  rewrite process_song_data_outcome. cbn [snd files trace with_trace].
  split; [reflexivity |]. split; [intros p d H; exact H |].
  split; [repeat constructor |].
  eexists. split; [reflexivity |]. intros x [].
Qed.

(** C1: the songs relation is never built.  Once the song files are read,
    the expression of lines 56-58 projects the four columns and asks for
    their distinct rows, and then names [monotonically_increasing_id], which
    the module does not import: the transform raises [NameError] there,
    whatever the records, and asks for no write; songs/ is as it was. *)
Theorem songs_relation_never_built (spark : SparkSession) (input_data output_data : string)
    (w : World) (d : Dataset) (parts : list (list Row)) :
  files w (dataset_root (input_data ++ "song_data/*/*/*/*.json")) = Some d ->
  scan w (input_data ++ "song_data/*/*/*/*.json")%string d = Some parts ->
  fst (process_song_data shuffle_partitions row_hash spark input_data output_data w)
  = Raise (NameError "monotonically_increasing_id") /\
  fst (songs_table shuffle_partitions row_hash
         {| columns := map field_name song_schema;
            partitions := map (map (read_record (cast w) song_schema)) parts |} w)
  = Raise (NameError "monotonically_increasing_id") /\
  files (snd (process_song_data shuffle_partitions row_hash spark input_data output_data w))
        (songs_written output_data)
  = files w (songs_written output_data) /\
  writes (asked w (snd (process_song_data shuffle_partitions row_hash
                          spark input_data output_data w))) = [].
Proof.
  intros Hd Hparts. rewrite process_song_data_outcome, Hd, Hparts.
  cbn [fst snd]. rewrite asked_app. cbn [files with_trace].
  split; [reflexivity |]. split; [| split; reflexivity].
  unfold songs_table, select. run_script. rewrite song_columns_resolve. reflexivity.
Qed.

(** C5: the artists relation is never built.  The transform stops before
    line 64 in every run, artists/ is as it was and no write to it is asked
    for; and the projection of lines 64-65 itself raises on the frame of
    the song files, since "artist_name as name" is the name of none of its
    columns. *)
Theorem artists_relation_never_built (spark : SparkSession)
    (input_data output_data : string) (w : World) :
  (exists e, fst (process_song_data shuffle_partitions row_hash
                    spark input_data output_data w) = Raise e) /\
  files (snd (process_song_data shuffle_partitions row_hash spark input_data output_data w))
        (artists_written output_data)
  = files w (artists_written output_data) /\
  ~ In (artists_written output_data)
       (writes (asked w (snd (process_song_data shuffle_partitions row_hash
                                spark input_data output_data w)))) /\
  forall parts w0,
    artists_table shuffle_partitions row_hash
      {| columns := map field_name song_schema; partitions := parts |} w0
    = (Raise (AnalysisException "artist_name as name"), w0).
Proof.
  rewrite process_song_data_outcome. cbn [fst snd]. rewrite asked_app.
  cbn [files with_trace].
  split; [| split; [reflexivity | split; [intros [] |]]].
  - destruct (files w _) as [d |]; [| eauto]. destruct (scan w _ d); eauto.
  - intros parts w0. unfold artists_table, select. run_script.
    rewrite renaming_is_no_song_column. reflexivity.
Qed.

End SongFrame.

Lemma songs_relation_never_built_witness :
  fst (process_song_data 2 Sample.hash Sample.spark "s3a://udacity-dend/" "" Sample.lake)
  = Raise (NameError "monotonically_increasing_id") /\
  fst (songs_table 2 Sample.hash
         {| columns := map field_name song_schema;
            partitions := map (map (read_record (cast Sample.lake) song_schema))
                              [Sample.song_data] |} Sample.lake)
  = Raise (NameError "monotonically_increasing_id") /\
  files (snd (process_song_data 2 Sample.hash Sample.spark "s3a://udacity-dend/" ""
                Sample.lake)) (songs_written "")
  = files Sample.lake (songs_written "") /\
  writes (asked Sample.lake
            (snd (process_song_data 2 Sample.hash Sample.spark "s3a://udacity-dend/" ""
                    Sample.lake))) = [].
Proof.
  apply (songs_relation_never_built 2 Sample.hash Sample.spark "s3a://udacity-dend/" ""
           Sample.lake [([], Sample.song_data)] [Sample.song_data]).
  - reflexivity.
  - reflexivity.
Defined.

(** ** Running the event-log transform *)

Lemma page_resolves (parts : list (list Row)) :
  existsb (String.eqb "page") (map field_name log_schema) = true /\
  resolves "page" {| columns := map field_name log_schema; partitions := parts |} = true.
Proof. split; reflexivity. Qed.

Section LogRun.

Variable shuffle_partitions : nat.
Variable row_hash : Row -> nat.
Variable zone_offset : Z -> Z.
Variable lines_141_151 :
  SparkSession -> string -> DataFrame -> DataFrame -> DataFrame -> DataFrame -> M unit.

Local Abbreviation run_log_data :=
  (process_log_data shuffle_partitions row_hash zone_offset lines_141_151).

(** The transform reads and filters, and then stops: on the read when no
    file is found, and otherwise on the projection of line 111.  It never
    gets to a write. *)
Lemma process_log_data_outcome (spark : SparkSession) (input_data output_data : string)
    (w : World) :
  run_log_data spark input_data output_data w
  = (match files w (dataset_root (input_data ++ "log_data/*/*/*.json")) with
     | None => Raise (PathNotFound (input_data ++ "log_data/*/*/*.json"))
     | Some d =>
         match scan w (input_data ++ "log_data/*/*/*.json")%string d with
         | None => Raise (PathNotFound (input_data ++ "log_data/*/*/*.json"))
         | Some _ => Raise (AnalysisException "userId as user_id")
         end
     end,
     with_trace (trace w ++ [Enter "process_log_data" input_data output_data;
                             ReadJson (input_data ++ "log_data/*/*/*.json")]) w).
Proof.
  unfold process_log_data, read_json, scan_files, users_table, select, attr. run_script.
  destruct (files w (dataset_root (input_data ++ "log_data/*/*/*.json"))) as [d |];
    run_script; rewrite <- ?app_assoc; [| reflexivity].
  destruct (scan w (input_data ++ "log_data/*/*/*.json")%string d) as [parts |];
    run_script; [| reflexivity].
  cbn [columns].
  destruct (page_resolves (map (map (read_record (cast w) log_schema)) parts)) as (-> & ->).
  run_script. unfold next_song, where_. cbn [columns partitions].
  rewrite renaming_is_no_log_column. reflexivity.
Qed.

End LogRun.

(** ** The filter *)

Lemma sql_eqb_true (a b : Value) : sql_eqb a b = true -> a = b /\ a <> VNull.
Proof.
  unfold sql_eqb. intros H.
  destruct (Value_eq_dec a b) as [-> | Hne].
  - split; [reflexivity |]. destruct b; discriminate.
  - destruct a, b; discriminate.
Qed.

Lemma sql_eqb_neq (a b : Value) : a <> b -> sql_eqb a b = false.
Proof.
  intros Hne. destruct (sql_eqb a b) eqn:E; [| reflexivity].
  apply sql_eqb_true in E. destruct E. contradiction.
Qed.

Lemma collect_where (p : Row -> bool) (df : DataFrame) :
  collect (where_ p df) = filter p (collect df).
Proof.
  unfold collect, where_. cbn [partitions].
  induction (partitions df) as [| part l IH]; simpl; [reflexivity |].
  now rewrite filter_app, IH.
Qed.

Lemma next_song_In (df : DataFrame) (x : Row) :
  In x (collect (next_song df)) <-> In x (collect df) /\ get "page" x = VString "NextSong".
Proof.
  unfold next_song. rewrite collect_where, filter_In. split; intros [Hin H]; split; auto.
  - now apply sql_eqb_true in H.
  - rewrite H. reflexivity.
Qed.

Lemma next_song_without (cols : list string) (pre post : list (list Row))
    (l1 l2 : list Row) (e : Row) :
  get "page" e <> VString "NextSong" ->
  next_song {| columns := cols; partitions := pre ++ (l1 ++ e :: l2) :: post |}
  = next_song {| columns := cols; partitions := pre ++ (l1 ++ l2) :: post |}.
Proof.
  intros Hpage. unfold next_song, where_. cbn [columns partitions]. f_equal.
  rewrite !map_app. cbn [map]. rewrite !filter_app. cbn [filter].
  now rewrite (sql_eqb_neq _ _ Hpage).
Qed.

Section LogClaims.

Variable shuffle_partitions : nat.
Variable row_hash : Row -> nat.
Variable zone_offset : Z -> Z.
Variable lines_141_151 :
  SparkSession -> string -> DataFrame -> DataFrame -> DataFrame -> DataFrame -> M unit.

Local Abbreviation run_log_data :=
  (process_log_data shuffle_partitions row_hash zone_offset lines_141_151).

(** C2: no row made from an event whose page is not "NextSong" gets into
    users/, time/ or songplays/ (nor into any other dataset): every frame
    built after line 108 is built from the filtered frame, which holds no
    such event and is the same with the event as without it, and the
    transform, whatever its outcome, leaves every dataset as it was and asks
    for no write. *)
Theorem non_next_song_event_leaves_no_row (spark : SparkSession)
    (input_data output_data : string) (w : World) :
  (forall df e, get "page" e <> VString "NextSong" -> ~ In e (collect (next_song df))) /\
  (forall cols pre post l1 l2 e,
     get "page" e <> VString "NextSong" ->
     next_song {| columns := cols; partitions := pre ++ (l1 ++ e :: l2) :: post |}
     = next_song {| columns := cols; partitions := pre ++ (l1 ++ l2) :: post |}) /\
  (forall p, files (snd (run_log_data spark input_data output_data w)) p = files w p) /\
  Forall (fun p => files (snd (run_log_data spark input_data output_data w)) p = files w p)
         [(output_data ++ "users/")%string; (output_data ++ "time/")%string;
          (output_data ++ "songplays/")%string] /\
  writes (asked w (snd (run_log_data spark input_data output_data w))) = [].
Proof.
  rewrite process_log_data_outcome. cbn [fst snd]. rewrite asked_app.
  cbn [files with_trace].
  split; [| split; [| split; [| split]]].
  - intros df e Hpage Hin. apply next_song_In in Hin. destruct Hin. contradiction.
  - intros. now apply next_song_without.
  - reflexivity.
  - repeat constructor.
  - reflexivity.
Qed.

(** C3: the time relation is never built.  With the log files read, the
    transform raises on the projection of line 111 and time/ is as it was,
    no write asked for; and the statements that would build the relation
    raise too: line 118 names [date_conversion] and the chain of lines
    122-129 names [day], both bound nowhere. *)
Theorem time_relation_never_built (spark : SparkSession) (input_data output_data : string)
    (w : World) (d : Dataset) (parts : list (list Row)) :
  files w (dataset_root (input_data ++ "log_data/*/*/*.json")) = Some d ->
  scan w (input_data ++ "log_data/*/*/*.json")%string d = Some parts ->
  fst (run_log_data spark input_data output_data w)
  = Raise (AnalysisException "userId as user_id") /\
  files (snd (run_log_data spark input_data output_data w)) (output_data ++ "time/")%string
  = files w (output_data ++ "time/")%string /\
  writes (asked w (snd (run_log_data spark input_data output_data w))) = [] /\
  (forall w0, get_datetime w0 = (Raise (NameError "date_conversion"), w0)) /\
  (forall df w0, resolves "start_time" df = true ->
     time_table shuffle_partitions row_hash zone_offset df w0
     = (Raise (NameError "day"), w0)) /\
  (forall df w0, exists e,
     time_table shuffle_partitions row_hash zone_offset df w0 = (Raise e, w0)).
Proof.
  intros Hd Hparts. rewrite process_log_data_outcome, Hd, Hparts.
  cbn [fst snd]. rewrite asked_app. cbn [files with_trace].
  repeat (split; [reflexivity |]).
  assert (Hday : forall df w0, resolves "start_time" df = true ->
     time_table shuffle_partitions row_hash zone_offset df w0
     = (Raise (NameError "day"), w0)).
  { intros df w0 H. unfold time_table, select. cbn [find]. rewrite H. reflexivity. }
  split; [exact Hday |].
  intros df w0. destruct (resolves "start_time" df) eqn:H.
  - eexists. now apply Hday.
  - unfold time_table, select. cbn [find]. rewrite H. run_script.
    eexists. reflexivity.
Qed.

(** C4: the songplays relation is never built, for matched and unmatched
    events alike.  With the log files read, the transform raises on the
    projection of line 111 and songplays/ is as it was; and the join of
    line 140 itself raises, on the name [song_df]. *)
Theorem songplays_relation_never_built (spark : SparkSession)
    (input_data output_data : string) (w : World) (d : Dataset) (parts : list (list Row)) :
  files w (dataset_root (input_data ++ "log_data/*/*/*.json")) = Some d ->
  scan w (input_data ++ "log_data/*/*/*.json")%string d = Some parts ->
  (exists e, fst (run_log_data spark input_data output_data w) = Raise e) /\
  files (snd (run_log_data spark input_data output_data w))
        (output_data ++ "songplays/")%string
  = files w (output_data ++ "songplays/")%string /\
  ~ In (output_data ++ "songplays/")%string
       (writes (asked w (snd (run_log_data spark input_data output_data w)))) /\
  (forall songs_df w0,
     songs_logs_joined_df
       (next_song {| columns := map field_name log_schema;
                     partitions := map (map (read_record (cast w) log_schema)) parts |})
       songs_df w0
     = (Raise (NameError "song_df"), w0)) /\
  (forall df songs_df w0, exists e, songs_logs_joined_df df songs_df w0 = (Raise e, w0)).
Proof.
  intros Hd Hparts. rewrite process_log_data_outcome, Hd, Hparts.
  cbn [fst snd]. rewrite asked_app. cbn [files with_trace].
  split; [eauto |]. split; [reflexivity |]. split; [intros [] |]. split.
  - intros songs_df w0. reflexivity.
  - intros df songs_df w0. unfold songs_logs_joined_df, attr. run_script.
    destruct (existsb (String.eqb "song") (columns df)); [| eauto].
    destruct (resolves "song" df); eauto.
Qed.

(** C9: no relation partitioned by year and month is ever written.  In every
    run the transform raises before line 132: it asks for no write, so for
    none partitioned by year and month, and time/ and songplays/ are as they
    were. *)
Theorem partitioned_relations_never_written (spark : SparkSession)
    (input_data output_data : string) (w : World) :
  (exists e, fst (run_log_data spark input_data output_data w) = Raise e /\
             (e = PathNotFound (input_data ++ "log_data/*/*/*.json") \/
              e = AnalysisException "userId as user_id")) /\
  (forall path, ~ In (WriteParquet path ["year"; "month"])
                     (asked w (snd (run_log_data spark input_data output_data w)))) /\
  files (snd (run_log_data spark input_data output_data w)) (output_data ++ "time/")%string
  = files w (output_data ++ "time/")%string /\
  files (snd (run_log_data spark input_data output_data w))
        (output_data ++ "songplays/")%string
  = files w (output_data ++ "songplays/")%string.
Proof.
  rewrite process_log_data_outcome. cbn [fst snd]. rewrite asked_app.
  cbn [files with_trace].
  split; [| split; [| split; reflexivity]].
  - destruct (files w _) as [d |]; [| eauto]. destruct (scan w _ d); eauto.
  - intros path [H | [H | []]]; discriminate.
Qed.

End LogClaims.

Lemma time_relation_never_built_witness :
  fst (process_log_data 2 Sample.hash Sample.utc Sample.unreached Sample.spark
         "s3a://udacity-dend/" "" Sample.lake)
  = Raise (AnalysisException "userId as user_id") /\
  files (snd (process_log_data 2 Sample.hash Sample.utc Sample.unreached Sample.spark
                "s3a://udacity-dend/" "" Sample.lake)) "time/" = None.
Proof.
  pose proof (time_relation_never_built 2 Sample.hash Sample.utc Sample.unreached
                Sample.spark "s3a://udacity-dend/" "" Sample.lake
                [([], Sample.log_data)] [Sample.log_data] eq_refl eq_refl) as H.
  split; [exact (proj1 H) | exact (proj1 (proj2 H))].
Defined.

Lemma songplays_relation_never_built_witness :
  In (Sample.event "NextSong" "Unknown Song" "Ann" 1543622400000000 (VInt 8))
     Sample.log_data /\
  (forall s, In s Sample.song_data -> get "title" s <> VString "Unknown Song") /\
  (exists e, fst (process_log_data 2 Sample.hash Sample.utc Sample.unreached Sample.spark
                    "s3a://udacity-dend/" "" Sample.lake) = Raise e) /\
  files (snd (process_log_data 2 Sample.hash Sample.utc Sample.unreached Sample.spark
                "s3a://udacity-dend/" "" Sample.lake)) "songplays/" = None.
Proof.
  pose proof (songplays_relation_never_built 2 Sample.hash Sample.utc Sample.unreached
                Sample.spark "s3a://udacity-dend/" "" Sample.lake
                [([], Sample.log_data)] [Sample.log_data] eq_refl eq_refl) as H.
  split; [simpl; auto |]. split.
  - intros s Hs. simpl in Hs.
    repeat (destruct Hs as [<- | Hs]; [discriminate |]). contradiction.
  - split; [exact (proj1 H) | exact (proj1 (proj2 H))].
Defined.

(** ** The orchestrator *)

Section Orchestrator.

Variable shuffle_partitions : nat.
Variable row_hash : Row -> nat.
Variable zone_offset : Z -> Z.
Variable lines_141_151 :
  SparkSession -> string -> DataFrame -> DataFrame -> DataFrame -> DataFrame -> M unit.

Local Abbreviation run_main := (main shuffle_partitions row_hash zone_offset lines_141_151).
Local Abbreviation run_module :=
  (module_body shuffle_partitions row_hash zone_offset lines_141_151).
Local Abbreviation run_etl_py :=
  (etl_py shuffle_partitions row_hash zone_offset lines_141_151).

Lemma main_outcome (w : World) :
  run_main w
  = if engine_up w
    then (match files w (dataset_root "s3a://udacity-dend/song_data/*/*/*/*.json") with
          | None => Raise (PathNotFound "s3a://udacity-dend/song_data/*/*/*/*.json")
          | Some d =>
              match scan w "s3a://udacity-dend/song_data/*/*/*/*.json" d with
              | None => Raise (PathNotFound "s3a://udacity-dend/song_data/*/*/*/*.json")
              | Some _ => Raise (NameError "monotonically_increasing_id")
              end
          end,
          with_trace (trace w ++ [GetOrCreate "org.apache.hadoop:hadoop-aws:2.7.0";
                                  Enter "process_song_data" "s3a://udacity-dend/" "";
                                  ReadJson "s3a://udacity-dend/song_data/*/*/*/*.json"]) w)
    else (Raise EngineUnavailable,
          with_trace (trace w ++ [GetOrCreate "org.apache.hadoop:hadoop-aws:2.7.0"]) w).
Proof.
  unfold main, create_spark_session. run_script.
  destruct (engine_up w); [| reflexivity].
  rewrite process_song_data_outcome. run_script.
  change ("s3a://udacity-dend/" ++ "song_data/*/*/*/*.json")%string
    with "s3a://udacity-dend/song_data/*/*/*/*.json".
  rewrite <- app_assoc. cbn [app].
  destruct (files w (dataset_root "s3a://udacity-dend/song_data/*/*/*/*.json")) as [d |];
    [| reflexivity].
  destruct (scan w "s3a://udacity-dend/song_data/*/*/*/*.json" d); reflexivity.
Qed.

Lemma module_body_outcome (w : World) :
  run_module w
  = (match dl_cfg w with
     | Unparsable => Raise ConfigParsingError
     | NoFile => Raise (KeyError "AWS_ACCESS_KEY_ID")
     | Sections names =>
         if existsb (String.eqb "AWS_ACCESS_KEY_ID") names
         then Raise (TypeError "str expected, not SectionProxy")
         else Raise (KeyError "AWS_ACCESS_KEY_ID")
     end, w).
Proof.
  unfold module_body, load_settings, config_read, setenv_section, section. run_script.
  destruct (dl_cfg w) as [| | names]; try reflexivity.
  change (String.eqb "AWS_ACCESS_KEY_ID" "DEFAULT") with false. cbn [orb].
  destruct (existsb (String.eqb "AWS_ACCESS_KEY_ID") names); reflexivity.
Qed.

(** C6: the orchestrator never gets to the event-log transform.  It asks
    for the session and enters the song-catalog transform with the roots
    "s3a://udacity-dend/" and "" written in it, and the run ends there in an
    exception (the missing session, the missing song files, or the unbound
    name of line 58): [process_log_data] is entered in no run and no dataset
    changes.  Run as a script, the module does not get as far as [main]:
    its settings lines raise for every settings file, and the file as a
    whole is rejected for the indentation of line 146. *)
Theorem main_never_reaches_log_data (w : World) :
  (exists e, fst (run_main w) = Raise e /\
             (e = EngineUnavailable \/
              e = PathNotFound "s3a://udacity-dend/song_data/*/*/*/*.json" \/
              e = NameError "monotonically_increasing_id")) /\
  (asked w (snd (run_main w)) = [GetOrCreate "org.apache.hadoop:hadoop-aws:2.7.0"] \/
   asked w (snd (run_main w))
   = [GetOrCreate "org.apache.hadoop:hadoop-aws:2.7.0";
      Enter "process_song_data" "s3a://udacity-dend/" "";
      ReadJson "s3a://udacity-dend/song_data/*/*/*/*.json"]) /\
  (forall i o, ~ In (Enter "process_log_data" i o) (asked w (snd (run_main w)))) /\
  (forall p, files (snd (run_main w)) p = files w p) /\
  (exists e, run_module w = (Raise e, w) /\
             (e = ConfigParsingError \/ e = KeyError "AWS_ACCESS_KEY_ID" \/
              e = TypeError "str expected, not SectionProxy")) /\
  run_etl_py w = (Raise (IndentationError 146), w).
Proof.
  rewrite main_outcome, module_body_outcome.
  split; [| split; [| split; [| split; [| split]]]].
  - destruct (engine_up w); cbn [fst]; [| eauto].
    destruct (files w _) as [d |]; [| eauto 6]. destruct (scan w _ d); eauto 6.
  - destruct (engine_up w); cbn [snd]; rewrite asked_app; auto.
  - intros i o. destruct (engine_up w); cbn [snd]; rewrite asked_app;
      intros H; simpl in H; repeat (destruct H as [H | H]; [discriminate |]); exact H.
  - intros p. destruct (engine_up w); reflexivity.
  - destruct (dl_cfg w) as [| | names]; [eauto | eauto | ].
    destruct (existsb (String.eqb "AWS_ACCESS_KEY_ID") names); eauto 6.
  - reflexivity.
Qed.

End Orchestrator.

(** ** The songs the event-log transform reads *)

Lemma append_assoc (a b c : string) : ((a ++ b) ++ c)%string = (a ++ (b ++ c))%string.
Proof. induction a as [| ch a IH]; simpl; [reflexivity | now rewrite IH]. Qed.

(** C7: the event-log transform reads the artists relation from the
    directory line 70 writes, but it reads the songs relation from
    song_data/ under the output root, which is not inside the directory
    line 61 writes (songs/), whatever the output root.  On an output
    directory that holds songs/ and artists/ as lines 61 and 70 would leave
    them, the read of line 137 finds the artists and the read of line 135
    raises: the path does not exist. *)
Theorem songs_read_path_is_not_written (output_data : string) :
  (forall inside, songs_read output_data <> (songs_written output_data ++ inside)%string) /\
  artists_read output_data = (artists_written output_data ++ "*")%string /\
  dataset_root (artists_read "") = artists_written "" /\
  dataset_root (songs_read "") <> songs_written "" /\
  (forall spark w,
     files w (dataset_root (songs_read "")) = None ->
     fst (read_parquet spark (songs_read "") w) = Raise (PathNotFound "song_data/*/*/*")) /\
  fst (read_parquet Sample.spark (songs_read "") Sample.written)
  = Raise (PathNotFound "song_data/*/*/*") /\
  fst (read_parquet Sample.spark (artists_read "") Sample.written)
  = Ok {| columns := ["artist_id"; "name"; "location"; "latitude"; "longitude"];
          partitions := [[[("artist_id", VLong 0); ("name", VString "Ann");
                           ("location", VString "Oslo"); ("latitude", VNull);
                           ("longitude", VNull)]]] |}.
Proof.
  split; [| split; [| split; [| split; [| split; [| split]]]]].
  - intros inside H. unfold songs_read, songs_written in H.
    rewrite append_assoc in H. apply append_inv_head in H. discriminate.
  - unfold artists_read, artists_written. now rewrite append_assoc.
  - reflexivity.
  - discriminate.
  - intros spark w H. unfold read_parquet, scan_files. run_script. rewrite H. reflexivity.
  - reflexivity.
  - reflexivity.
Qed.

(** ** Required fields of the schemas *)

Lemma read_record_null (cast : DataType -> Value -> Value) (schema : list StructField)
    (f : StructField) (rec : Row) :
  In f schema ->
  NoDup (map field_name schema) ->
  get (field_name f) rec = VNull ->
  get (field_name f) (read_record cast schema rec) = VNull.
Proof.
  intros Hin Hnd Hnull. unfold read_record.
  induction schema as [| g schema IH]; [contradiction |].
  cbn [map get fst snd]. simpl in Hnd. inversion Hnd as [| ? ? Hnotin Hnd']; subst.
  destruct Hin as [-> | Hin].
  - rewrite String.eqb_refl. unfold read_field. now rewrite Hnull.
  - destruct (String.eqb (field_name f) (field_name g)) eqn:E.
    + apply String.eqb_eq in E. exfalso. apply Hnotin. rewrite <- E. now apply in_map.
    + now apply IH.
Qed.

(** C8: a null in a field the schema marks required does not fail the load.
    Whenever files are found, [spark.read.json] returns the frame of their
    records, and a required field that is null or absent in a record is null
    in its row.  The song file with a null artist_id and song_id loads, and
    the transform then stops on the name of line 58 as it does on any other
    file, not on the record; so does the log file with a null userId, the
    transform stopping on line 111. *)
Theorem required_fields_not_enforced (shuffle_partitions : nat) (row_hash : Row -> nat)
    (zone_offset : Z -> Z)
    (lines_141_151 :
       SparkSession -> string -> DataFrame -> DataFrame -> DataFrame -> DataFrame -> M unit) :
  (forall spark path schema w d parts,
     files w (dataset_root path) = Some d ->
     scan w path d = Some parts ->
     read_json spark path schema w
     = (Ok {| columns := map field_name schema;
              partitions := map (map (read_record (cast w) schema)) parts |},
        with_trace (trace w ++ [ReadJson path]) w)) /\
  (forall cast f rec,
     get (field_name f) rec = VNull ->
     (In f song_schema -> get (field_name f) (read_record cast song_schema rec) = VNull) /\
     (In f log_schema -> get (field_name f) (read_record cast log_schema rec) = VNull)) /\
  fst (read_json Sample.spark "s3a://udacity-dend/song_data/*/*/*/*.json" song_schema
         Sample.null_lake)
  = Ok {| columns := map field_name song_schema;
          partitions := [[[("num_songs", VInt 1); ("artist_id", VNull);
                           ("artist_latitude", VNull); ("artist_longitude", VNull);
                           ("artist_location", VNull); ("artist_name", VString "Cy");
                           ("song_id", VNull); ("title", VString "Red");
                           ("duration", VNull); ("year", VInt 1999)]]] |} /\
  fst (process_song_data shuffle_partitions row_hash Sample.spark "s3a://udacity-dend/" ""
         Sample.null_lake)
  = Raise (NameError "monotonically_increasing_id") /\
  fst (process_song_data shuffle_partitions row_hash Sample.spark "s3a://udacity-dend/" ""
         Sample.lake)
  = Raise (NameError "monotonically_increasing_id") /\
  fst (process_log_data shuffle_partitions row_hash zone_offset lines_141_151 Sample.spark
         "s3a://udacity-dend/" "" Sample.null_lake)
  = Raise (AnalysisException "userId as user_id").
Proof.
  split; [| split; [| split; [| split; [| split]]]].
  - intros spark path schema w d parts Hd Hparts.
    unfold read_json, scan_files. run_script. rewrite Hd. run_script. rewrite Hparts.
    reflexivity.
  - intros cast f rec Hnull. split; intros Hin.
    + apply read_record_null; [assumption | | assumption].
      repeat constructor; simpl; intuition discriminate.
    + apply read_record_null; [assumption | | assumption].
      repeat constructor; simpl; intuition discriminate.
  - reflexivity.
  - rewrite process_song_data_outcome. reflexivity.
  - rewrite process_song_data_outcome. reflexivity.
  - rewrite process_log_data_outcome. reflexivity.
Qed.

(** ** The hour column *)

Lemma hour_of_range (zone_offset : Z -> Z) (t : Z) : 0 <= hour_of zone_offset t <= 23.
Proof.
  unfold hour_of, SECONDS_PER_DAY, SECONDS_PER_HOUR.
  Z.to_euclidean_division_equations. lia.
Qed.


(** ** The filter of line 108 *)


(** ** The settings of lines 10-14 *)

